(** * Verification of the line-item pipeline of app.py (Financial Dashboard)

    Shallow embedding of [classify_line_item], [load_data_from_upload],
    [create_sample_data], the key-metric block of [main],
    [create_kpi_chart], the groupby of [create_enhanced_pie_chart],
    [create_enhanced_waterfall_chart] and the session logic of [main].
    Numeric amounts are modelled as exact rationals [Q]; a Python [str] as
    a [string] whose characters are the code points 0-255 (Latin-1). *)

From Stdlib Require Import Bool List Ascii String ZArith QArith Qabs Lia.
From Stdlib Require Import Permutation Sorting.Sorted.
From Stdlib Require Import Numbers.DecimalString.
Import ListNotations.
Open Scope string_scope.

(** ** Python string primitives used by the code *)
Module PyStr.

(** [c.lower()] on code points 0-255: A-Z and the Latin-1 capitals
    U+00C0-U+00D6, U+00D8-U+00DE map 32 code points up. *)
Definition lower_char (c : ascii) : ascii :=
  let n := nat_of_ascii c in
  if ((65 <=? n)%nat && (n <=? 90)%nat) ||
     ((192 <=? n)%nat && (n <=? 222)%nat && negb (n =? 215)%nat)
  then ascii_of_nat (n + 32) else c.

(** [s.lower()] *)
Fixpoint lower (s : string) : string :=
  match s with
  | EmptyString => EmptyString
  | String c s' => String (lower_char c) (lower s')
  end.

(** [prefix p s]: [s.startswith(p)] *)
Fixpoint startswith (p s : string) : bool :=
  match p, s with
  | EmptyString, _ => true
  | String _ _, EmptyString => false
  | String a p', String b s' => Ascii.eqb a b && startswith p' s'
  end.

(** [p in s] for strings: substring test. *)
Fixpoint contains (s p : string) : bool :=
  match s with
  | EmptyString => startswith p s
  | String _ s' => startswith p s || contains s' p
  end.

(** [c.isspace()] on code points 0-255, the characters [str.strip()]
    removes: U+0009-U+000D, U+001C-U+001F, space, U+0085 and U+00A0. *)
Definition is_space (c : ascii) : bool :=
  let n := nat_of_ascii c in
  ((9 <=? n)%nat && (n <=? 13)%nat) || ((28 <=? n)%nat && (n <=? 32)%nat) ||
  (n =? 133)%nat || (n =? 160)%nat.

Fixpoint lstrip (s : string) : string :=
  match s with
  | EmptyString => EmptyString
  | String c s' => if is_space c then lstrip s' else s
  end.

Fixpoint rev_str (s : string) : string :=
  match s with
  | EmptyString => EmptyString
  | String c s' => rev_str s' ++ String c EmptyString
  end.

(** [s.strip()] *)
Definition strip (s : string) : string := rev_str (lstrip (rev_str (lstrip s))).

(** [c.isdigit()] on code points 0-255: 0-9 and the superscripts
    U+00B2, U+00B3, U+00B9. *)
Definition is_digit (c : ascii) : bool :=
  let n := nat_of_ascii c in
  ((48 <=? n)%nat && (n <=? 57)%nat) || (n =? 178)%nat || (n =? 179)%nat ||
  (n =? 185)%nat.

(** The decimal digits 0-9 (the only ones [float()] accepts below U+0100). *)
Definition is_ascii_digit (c : ascii) : bool :=
  let n := nat_of_ascii c in (48 <=? n)%nat && (n <=? 57)%nat.

Fixpoint all_digits (s : string) : bool :=
  match s with
  | EmptyString => true
  | String c s' => is_digit c && all_digits s'
  end.

(** [s.isdigit()]: non-empty and every character a digit. *)
Definition isdigit (s : string) : bool :=
  match s with
  | EmptyString => false
  | _ => all_digits s
  end.

(** [any(word in s for word in words)] *)
Definition any_in (words : list string) (s : string) : bool :=
  existsb (contains s) words.

End PyStr.

Import PyStr.

(** ** Classifier: [classify_line_item] (app.py lines 184-199) *)
Module Classifier.

Definition classify_line_item (description : string) : string :=
  let description_lower := lower description in
  if any_in ["revenue"; "income"; "sales"; "turnover"] description_lower then
    "Revenue"
  else if any_in ["cost"; "expense"; "expenditure"; "operating"; "admin"; "selling"]
            description_lower then
    "Expenses"
  else if any_in ["profit"; "loss"; "net"; "ebitda"; "ebit"] description_lower then
    "Profit/Loss"
  else if any_in ["tax"; "interest"; "finance"] description_lower then
    "Tax & Interest"
  else if any_in ["depreciation"; "amortization"] description_lower then
    "Depreciation"
  else
    "Other".

(** The six category names the code produces. *)
Definition categories : list string :=
  ["Revenue"; "Expenses"; "Profit/Loss"; "Tax & Interest"; "Depreciation"; "Other"].

(** The spec's classifier configuration table (section 6), as an ordered
    rule list: first matching group wins, default [Other]. *)
Definition keyword_table : list (string * list string) :=
  [ ("Revenue", ["revenue"; "income"; "sales"; "turnover"]);
    ("Expenses", ["cost"; "expense"; "expenditure"; "operating"; "admin"; "selling"]);
    ("Profit/Loss", ["profit"; "loss"; "net"; "ebitda"; "ebit"]);
    ("Tax & Interest", ["tax"; "interest"; "finance"]);
    ("Depreciation", ["depreciation"; "amortization"]) ].

Fixpoint first_match (table : list (string * list string)) (s : string) : string :=
  match table with
  | [] => "Other"
  | (cat, words) :: rest => if any_in words s then cat else first_match rest s
  end.

End Classifier.

Import Classifier.

(** ** Grid cells and Python's conversions of them *)
Module Grid.

(** A cell of the frame returned by [pd.read_excel(..., header=None)]:
    missing ([NaN]/[None]), text, an integer, or a float (with its value and
    the text [str()] prints for it; float printing is not modelled). *)
Inductive cell : Type :=
| Missing
| Text (s : string)
| Int (z : Z)
| Float (q : Q) (repr : string).

Definition row := list cell.
Definition grid := list row.

(** [pd.notna(c)] *)
Definition notna (c : cell) : bool :=
  match c with Missing => false | _ => true end.

(** [str(c)] *)
Definition py_str (c : cell) : string :=
  match c with
  | Missing => "nan"
  | Text s => s
  | Int z => NilEmpty.string_of_int (Z.to_int z)
  | Float _ r => r
  end.

(** [row.iloc[i]] on a row known to be long enough. *)
Definition iloc (r : row) (i : nat) : cell := nth i r Missing.

(** The header strings the scan drops (app.py line 162). *)
Definition header_rows : list string :=
  ["DESCRIPTION"; "UNITECH - TOSL KSA"; "INCOME STATEMENT_AS OF JULY 2025"].

(** Result of a Python call that may raise. *)
Inductive exc (A : Type) : Type :=
| Raised
| Ok (a : A).
Arguments Raised {A}.
Arguments Ok {A} a.

End Grid.

Import Grid.

(** ** Line items *)
Record line_item : Type := mk_line_item {
  Description : string;
  Value : Q;
  Category : string;
  Abs_Value : Q
}.

Definition dataset := list line_item.

(** ** [load_data_from_upload] (app.py lines 146-182) *)
Module Scan.
Section Scan.

(** [float(s)] on a text cell: [Some v], or [None] when it raises
    [ValueError]. Left abstract: the scan is studied for any text parser. *)
Variable float_of_text : string -> option Q.

(** [float(c)]; [None] is the [ValueError]/[TypeError] caught at line 172. *)
Definition py_float (c : cell) : option Q :=
  match c with
  | Missing => None
  | Text s => float_of_text s
  | Int z => Some (inject_Z z)
  | Float q _ => Some q
  end.

(** The body of the [for idx, row in df_raw.iterrows()] loop: the line item
    appended to [financial_data], if any. *)
Definition process_row (r : row) : option line_item :=
  if (5 <? List.length r)%nat && notna (iloc r 0) && notna (iloc r 5) then
    let description := strip (py_str (iloc r 0)) in
    match py_float (iloc r 5) with
    | None => None
    | Some value =>
        if negb (String.eqb description "") &&
           negb (existsb (String.eqb description) header_rows) &&
           negb (isdigit description) &&
           (2 <? String.length description)%nat
        then Some {| Description := description;
                     Value := value;
                     Category := classify_line_item description;
                     Abs_Value := Qabs value |}
        else None
    end
  else None.

(** The loop: [financial_data], in row order. *)
Fixpoint scan_rows (rows : grid) : dataset :=
  match rows with
  | [] => []
  | r :: rest =>
      match process_row r with
      | Some item => item :: scan_rows rest
      | None => scan_rows rest
      end
  end.

End Scan.

(** What [pd.read_excel] makes of the uploaded file. *)
Inductive upload : Type :=
| Unreadable
| Workbook (g : grid).

Definition read_excel (u : upload) : exc grid :=
  match u with
  | Unreadable => Raised
  | Workbook g => Ok g
  end.

(** [load_data_from_upload]: [None] models Python's [None]; the outer
    [except Exception] turns a raised [read_excel] into [None]. *)
Definition load_data_from_upload (float_of_text : string -> option Q)
    (uploaded_file : upload) : option dataset :=
  match read_excel uploaded_file with
  | Raised => None
  | Ok df_raw =>
      let financial_data := scan_rows float_of_text df_raw in
      match financial_data with
      | [] => None
      | _ :: _ => Some financial_data
      end
  end.

End Scan.

Import Scan.

(** A concrete [float(str)] for text cells: after [strip()], an optional sign
    and a decimal numeral with at least one digit. (Python also accepts
    exponents, [inf], [nan] and digit underscores; they are not modelled.) *)
Module FloatText.

Fixpoint decimal_body (s : string) (acc : Z) (frac : option nat) (ndigits : nat)
    : option Q :=
  match s with
  | EmptyString =>
      if (ndigits =? 0)%nat then None
      else Some (match frac with
                 | None => inject_Z acc
                 | Some k => Qmake acc (Z.to_pos (10 ^ Z.of_nat k))
                 end)
  | String c s' =>
      if is_ascii_digit c then
        decimal_body s' (10 * acc + Z.of_nat (nat_of_ascii c - 48))
          (option_map S frac) (S ndigits)
      else if Ascii.eqb c "." then
        match frac with
        | None => decimal_body s' acc (Some 0%nat) ndigits
        | Some _ => None
        end
      else None
  end.

Definition py_float_text (s : string) : option Q :=
  match strip s with
  | String c t =>
      if Ascii.eqb c "-" then option_map Qopp (decimal_body t 0 None 0)
      else if Ascii.eqb c "+" then decimal_body t 0 None 0
      else decimal_body (String c t) 0 None 0
  | EmptyString => None
  end.

End FloatText.

Import FloatText.

(** ** [create_sample_data] (app.py lines 201-215): a frame built from four
    columns, one line item per index. *)
Module Sample.

Fixpoint zip_columns (ds : list string) (vs : list Q) (cs : list string) (avs : list Q)
    : dataset :=
  match ds, vs, cs, avs with
  | d :: ds', v :: vs', c :: cs', a :: avs' =>
      {| Description := d; Value := v; Category := c; Abs_Value := a |}
        :: zip_columns ds' vs' cs' avs'
  | _, _, _, _ => []
  end.

Definition sample_descriptions : list string :=
  ["Total Revenue"; "Revenue (Other Income)"; "Cost of Goods Sold";
   "Operating Expenses"; "Administrative Expenses"; "Depreciation";
   "Interest Expense"; "Tax Expense"; "Net Income"].

Definition sample_values : list Q :=
  [175595668.23; -91082.5; -162826952.23; -8500000; -2300000;
   -1200000; -800000; -1500000; 2250000].

Definition sample_categories : list string :=
  ["Revenue"; "Revenue"; "Expenses"; "Expenses"; "Expenses";
   "Depreciation"; "Tax & Interest"; "Tax & Interest"; "Profit/Loss"].

Definition sample_abs_values : list Q :=
  [175595668.23; 91082.5; 162826952.23; 8500000; 2300000;
   1200000; 800000; 1500000; 2250000].

Definition create_sample_data : dataset :=
  zip_columns sample_descriptions sample_values sample_categories sample_abs_values.

End Sample.

Import Sample.

(** ** Key metrics (app.py lines 476-480, and [create_kpi_chart] 339-342) *)
Module Metrics.

Open Scope Q_scope.

Fixpoint sum_Q (xs : list Q) : Q :=
  match xs with
  | [] => 0
  | x :: xs' => x + sum_Q xs'
  end.

(** [df[df['Category'] == cat]] *)
Definition select_category (cat : string) (df : dataset) : dataset :=
  filter (fun it => String.eqb (Category it) cat) df.

(** [df[df['Category'] == cat]['Value'].sum()] *)
Definition category_value_sum (cat : string) (df : dataset) : Q :=
  sum_Q (map Value (select_category cat df)).

(** Python's [a / b] on floats: raises [ZeroDivisionError] on a zero divisor. *)
Definition py_truediv (a b : Q) : exc Q :=
  if Qeq_bool b 0 then Raised else Ok (a / b).

Record metrics : Type := mk_metrics {
  total_revenue : Q;
  total_expenses : Q;
  net_income : Q;
  profit_margin : exc Q
}.

(** [(net_income / total_revenue * 100) if total_revenue > 0 else 0] *)
Definition margin_of (net rev : Q) : exc Q :=
  if negb (Qle_bool rev 0) then
    match py_truediv net rev with
    | Raised => Raised
    | Ok r => Ok (r * 100)
    end
  else Ok 0.

Definition compute_metrics (df : dataset) : metrics :=
  let total_revenue := category_value_sum "Revenue" df in
  let total_expenses := Qabs (category_value_sum "Expenses" df) in
  let net_income := total_revenue - total_expenses in
  let profit_margin := margin_of net_income total_revenue in
  {| total_revenue := total_revenue; total_expenses := total_expenses;
     net_income := net_income; profit_margin := profit_margin |}.

(** [create_kpi_chart]: the gauge value. *)
Definition kpi_profit_margin (df : dataset) : exc Q :=
  profit_margin (compute_metrics df).

End Metrics.

Import Metrics.

(** ** [df.groupby('Category')['Abs_Value'].sum()] in
    [create_enhanced_pie_chart] (app.py line 266): one entry per distinct
    category, keys in sorted order. *)
Module GroupBy.

Open Scope Q_scope.

Fixpoint insert_sorted (k : string) (ks : list string) : list string :=
  match ks with
  | [] => [k]
  | k' :: ks' => if String.leb k k' then k :: ks else k' :: insert_sorted k ks'
  end.

Fixpoint sort_keys (ks : list string) : list string :=
  match ks with
  | [] => []
  | k :: ks' => insert_sorted k (sort_keys ks')
  end.

(** [df['Category'].unique()], first-occurrence order. *)
Fixpoint unique (seen : list string) (ks : list string) : list string :=
  match ks with
  | [] => []
  | k :: ks' =>
      if existsb (String.eqb k) seen then unique seen ks'
      else k :: unique (k :: seen) ks'
  end.

Definition group_keys (df : dataset) : list string :=
  sort_keys (unique [] (map Category df)).

(** The sum of [Abs_Value] over the group of [k]. *)
Definition group_sum (df : dataset) (k : string) : Q :=
  sum_Q (map Abs_Value (select_category k df)).

Definition category_totals (df : dataset) : list (string * Q) :=
  map (fun k => (k, group_sum df k)) (group_keys df).

End GroupBy.

Import GroupBy.

(** ** The dashboard of [main] (app.py lines 438-546) for a loaded frame and
    the sidebar's selected category. *)
Module Dashboard.

(** [categories = ['All'] + list(df['Category'].unique())] *)
Definition filter_options (df : dataset) : list string :=
  "All" :: unique [] (map Category df).

(** Lines 459-462. *)
Definition filter_frame (selected_category : string) (df : dataset) : dataset :=
  if negb (String.eqb selected_category "All")
  then select_category selected_category df
  else df.

Record view : Type := mk_view {
  metric_cards : metrics;           (* lines 477-496 *)
  pie_totals : list (string * Q);   (* line 514 *)
  kpi_gauge : exc Q;                (* line 520 *)
  bar_items : dataset;              (* line 527 *)
  table_items : dataset             (* line 534 *)
}.

Definition render (df : dataset) (selected_category : string) : view :=
  let df_filtered := filter_frame selected_category df in
  {| metric_cards := compute_metrics df;
     pie_totals := category_totals df_filtered;
     kpi_gauge := kpi_profit_margin df;
     bar_items := df_filtered;
     table_items := df_filtered |}.

End Dashboard.

Import Dashboard.

(** ** [create_enhanced_waterfall_chart] (app.py lines 229-262): the bar
    heights and the labelled net result. *)
Module Waterfall.

Open Scope Q_scope.

Record waterfall : Type := mk_waterfall {
  revenue_items : Q;
  expense_items : Q;
  depreciation : Q;
  tax_interest : Q;
  net_result : Q;
  (* [y=[revenue_items, -expense_items, -depreciation, -tax_interest, 0]] with
     [measure=["relative", "relative", "relative", "relative", "total"]] *)
  relative_bars : list Q
}.

Definition create_enhanced_waterfall_chart (df : dataset) : waterfall :=
  let revenue_items := category_value_sum "Revenue" df in
  let expense_items := Qabs (category_value_sum "Expenses" df) in
  let depreciation := Qabs (category_value_sum "Depreciation" df) in
  let tax_interest := Qabs (category_value_sum "Tax & Interest" df) in
  let net_result := revenue_items - expense_items - depreciation - tax_interest in
  {| revenue_items := revenue_items; expense_items := expense_items;
     depreciation := depreciation; tax_interest := tax_interest;
     net_result := net_result;
     relative_bars := [revenue_items; - expense_items; - depreciation; - tax_interest] |}.

End Waterfall.

Import Waterfall.

(** ** The session logic of [main] (app.py lines 395-474): one script run,
    from the session's [df_data] and the widgets' values. *)
Module Session.

(** How a run ends: [st.rerun()] stops it, or the dashboard is drawn, or
    no dashboard is drawn. *)
Inductive outcome : Type :=
| Rerun
| Shown (v : view)
| NotShown.

Record inputs : Type := mk_inputs {
  uploaded_file : option upload;   (* [st.file_uploader] *)
  demo_clicked : bool;             (* the "Load Demo Data" button *)
  reset_clicked : bool;            (* the "Reset Dashboard" button *)
  selected_category : string       (* the sidebar selectbox *)
}.

(** [st.session_state.df_data]; an absent key reads as [None] (line 396). *)
Definition session := option dataset.

(** [df is not None and not df.empty] *)
Definition present (df : option dataset) : bool :=
  match df with Some (_ :: _) => true | _ => false end.

Definition run_main (float_of_text : string -> option Q) (df_data : session)
    (i : inputs) : session * outcome :=
  (* lines 400-435 *)
  let step :=
    match uploaded_file i with
    | Some u =>
        let df := load_data_from_upload float_of_text u in
        if present df then (df, false) else (Some create_sample_data, false)
    | None =>
        match df_data with
        | None =>
            if demo_clicked i then (Some create_sample_data, true) else (None, false)
        | Some _ => (df_data, false)
        end
    end in
  let df_data := fst step in
  if snd step then (df_data, Rerun)
  else
    (* lines 438-474 *)
    match df_data with
    | Some ((_ :: _) as df) =>
        if reset_clicked i then (None, Rerun)
        else (df_data, Shown (render df (selected_category i)))
    | _ => (df_data, NotShown)
    end.

End Session.

Import Session.

(** ** Definitions used by the statements below *)
Module Props.

Open Scope Q_scope.

(** The invariant of a stored line item (spec section 3). *)
Definition item_ok (it : line_item) : Prop :=
  Abs_Value it = Qabs (Value it) /\ Description it <> "" /\ In (Category it) categories.

(** A row as the spec's inclusion rule (section 4.1) describes it, with the
    line item the scan builds from it. *)
Definition row_included (float_of_text : string -> option Q) (r : row)
    (it : line_item) : Prop :=
  exists c0 c5 v,
    nth_error r 0 = Some c0 /\ c0 <> Missing /\
    nth_error r 5 = Some c5 /\ c5 <> Missing /\
    py_float float_of_text c5 = Some v /\
    let d := strip (py_str c0) in
    d <> "" /\ (2 < String.length d)%nat /\ ~ In d header_rows /\
    isdigit d = false /\
    it = {| Description := d; Value := v; Category := classify_line_item d;
            Abs_Value := Qabs v |}.

(** The row [r] with its value cell (column 5) replaced by [c]. *)
Definition with_value_cell (r : row) (c : cell) : row :=
  (firstn 5 r ++ c :: skipn 6 r)%list.

(** Two-row frame used below: one revenue line, one expense line. *)
Definition revenue_expense_frame : dataset :=
  [ {| Description := "Total Revenue"; Value := 100; Category := "Revenue";
       Abs_Value := 100 |};
    {| Description := "Operating Expenses"; Value := -50; Category := "Expenses";
       Abs_Value := 50 |} ].

(** A frame whose revenue total is negative. *)
Definition negative_revenue_frame : dataset :=
  [ {| Description := "Revenue Reversal"; Value := -100; Category := "Revenue";
       Abs_Value := 100 |} ].

(** A grid row whose value cell is the float 0.0. *)
Definition zero_value_row : row :=
  [Text "Misc Fees"; Missing; Missing; Missing; Missing; Float 0 "0.0"].

End Props.

Import Props.

(** * Lemmas *)

Lemma lower_char_idem (c : ascii) : lower_char (lower_char c) = lower_char c.
Proof. destruct c as [[] [] [] [] [] [] [] []]; vm_compute; reflexivity. Qed.

Lemma lower_idem (s : string) : lower (lower s) = lower s.
Proof. induction s as [|c s IH]; simpl; [reflexivity|]. now rewrite lower_char_idem, IH. Qed.

Lemma classify_in_categories (d : string) : In (classify_line_item d) categories.
Proof.
  unfold classify_line_item, categories.
  repeat match goal with |- context [if ?b then _ else _] => destruct b end;
  simpl; tauto.
Qed.

(** * Claims *)

(** C1. The row ("Interest Expense", -800000) is classified as Expenses,
    not Tax & Interest: the keyword "expense" of the Expenses group, checked
    before the Tax & Interest group, matches first. The same description
    (and "Tax Expense") is labelled Tax & Interest in the sample data, and
    "Net Income" (Revenue by its keyword "income") Profit/Loss. *)
Theorem C1_interest_expense_misclassified :
  (forall float_of_text,
     process_row float_of_text
       [Text "Interest Expense"; Missing; Missing; Missing; Missing; Int (-800000)]
     = Some {| Description := "Interest Expense"; Value := inject_Z (-800000);
               Category := "Expenses"; Abs_Value := Qabs (inject_Z (-800000)) |}) /\
  classify_line_item "Interest Expense" = "Expenses" /\
  classify_line_item "Tax Expense" = "Expenses" /\
  classify_line_item "Net Income" = "Revenue" /\
  In {| Description := "Interest Expense"; Value := -800000; Category := "Tax & Interest";
        Abs_Value := 800000 |} create_sample_data /\
  In {| Description := "Tax Expense"; Value := -1500000; Category := "Tax & Interest";
        Abs_Value := 1500000 |} create_sample_data /\
  In {| Description := "Net Income"; Value := 2250000; Category := "Profit/Loss";
        Abs_Value := 2250000 |} create_sample_data.
Proof.
  split; [intros; vm_compute; reflexivity|].
  repeat split; try (vm_compute; reflexivity); simpl; tauto.
Qed.

(** C6. [classify_line_item] is the first-match rule over the ordered
    keyword table Revenue, Expenses, Profit/Loss, Tax & Interest,
    Depreciation (default Other) applied to the lower-cased description;
    it is case-insensitive, always yields one of the six categories, and
    "Net Revenue" is Revenue. *)
Theorem C6_classify_ordered_first_match :
  (forall d, classify_line_item d = first_match keyword_table (lower d)) /\
  (forall d, classify_line_item (lower d) = classify_line_item d) /\
  (forall d, In (classify_line_item d) categories) /\
  classify_line_item "Net Revenue" = "Revenue".
Proof.
  split; [intro d; reflexivity|].
  split; [intro d; unfold classify_line_item; now rewrite lower_idem|].
  split; [exact classify_in_categories|].
  vm_compute; reflexivity.
Qed.

Lemma notna_not_missing (c : cell) : notna c = true <-> c <> Missing.
Proof. destruct c; simpl; split; congruence. Qed.

Lemma process_row_iff (float_of_text : string -> option Q) (r : row) (it : line_item) :
  process_row float_of_text r = Some it <-> row_included float_of_text r it.
Proof.
  unfold process_row, row_included, iloc.
  destruct ((5 <? List.length r)%nat && notna (nth 0 r Missing) && notna (nth 5 r Missing))
    eqn:Hguard.
  - apply andb_true_iff in Hguard as [Hguard N5].
    apply andb_true_iff in Hguard as [L N0].
    apply Nat.ltb_lt in L.
    apply notna_not_missing in N0, N5.
    assert (E0 : nth_error r 0 = Some (nth 0 r Missing)) by (apply nth_error_nth'; lia).
    assert (E5 : nth_error r 5 = Some (nth 5 r Missing)) by (apply nth_error_nth'; lia).
    split.
    + destruct (py_float float_of_text (nth 5 r Missing)) as [v|] eqn:Hv; [|discriminate].
      destruct (negb (String.eqb (strip (py_str (nth 0 r Missing))) "") &&
                negb (existsb (String.eqb (strip (py_str (nth 0 r Missing)))) header_rows) &&
                negb (isdigit (strip (py_str (nth 0 r Missing)))) &&
                (2 <? String.length (strip (py_str (nth 0 r Missing))))%nat) eqn:Hc;
        [|discriminate].
      intro Hit; injection Hit as <-.
      repeat rewrite andb_true_iff in Hc.
      destruct Hc as [[[Ne Nh] Nd] Len].
      apply negb_true_iff in Ne, Nh, Nd.
      exists (nth 0 r Missing), (nth 5 r Missing), v.
      repeat split; auto.
      * intro He; rewrite He in Ne; discriminate.
      * now apply Nat.ltb_lt.
      * intro Hin. assert (existsb (String.eqb (strip (py_str (nth 0 r Missing)))) header_rows = true)
          as Hx by (apply existsb_exists; eexists; split; [exact Hin|apply String.eqb_refl]).
        congruence.
    + intros (c0 & c5 & v & H0 & _ & H5 & _ & Hv & Ne & Len & Nh & Nd & ->).
      rewrite E0 in H0; injection H0 as ->.
      rewrite E5 in H5; injection H5 as ->.
      rewrite Hv.
      replace (negb (String.eqb (strip (py_str c0)) "")) with true
        by (symmetry; apply negb_true_iff, String.eqb_neq; exact Ne).
      replace (negb (existsb (String.eqb (strip (py_str c0))) header_rows)) with true.
      2:{ symmetry; apply negb_true_iff.
          destruct (existsb (String.eqb (strip (py_str c0))) header_rows) eqn:Ex; [|reflexivity].
          apply existsb_exists in Ex as [x [Hx Hq]].
          apply String.eqb_eq in Hq; subst x; contradiction. }
      rewrite Nd. apply Nat.ltb_lt in Len. rewrite Len. reflexivity.
  - split; [discriminate|].
    intros (c0 & c5 & v & H0 & N0 & H5 & N5 & _).
    assert (L : (5 < List.length r)%nat)
      by (apply nth_error_Some; rewrite H5; discriminate).
    apply Nat.ltb_lt in L.
    assert (nth 0 r Missing = c0) as E0 by (apply nth_error_nth; exact H0).
    assert (nth 5 r Missing = c5) as E5 by (apply nth_error_nth; exact H5).
    rewrite E0, E5 in Hguard.
    apply notna_not_missing in N0, N5.
    rewrite L, N0, N5 in Hguard. discriminate.
Qed.

Lemma scan_rows_In (float_of_text : string -> option Q) (rows : grid) (it : line_item) :
  In it (scan_rows float_of_text rows) <->
  exists r, In r rows /\ process_row float_of_text r = Some it.
Proof.
  induction rows as [|r rows IH]; simpl.
  - split; [contradiction|]. intros (r & [] & _).
  - destruct (process_row float_of_text r) as [it'|] eqn:Hr; simpl; rewrite IH.
    + split.
      * intros [<- | (r' & Hin & Hr')]; [exists r; auto | exists r'; auto].
      * intros (r' & [<- | Hin] & Hr'); [left; congruence | right; exists r'; auto].
    + split.
      * intros (r' & Hin & Hr'); exists r'; auto.
      * intros (r' & [<- | Hin] & Hr'); [congruence | exists r'; auto].
Qed.


Lemma scan_rows_item_ok (float_of_text : string -> option Q) (rows : grid) :
  Forall item_ok (scan_rows float_of_text rows).
Proof.
  apply Forall_forall. intros it Hin.
  apply scan_rows_In in Hin as (r & _ & Hr).
  apply process_row_iff in Hr as (c0 & c5 & v & _ & _ & _ & _ & _ & Ne & _ & _ & _ & ->).
  split; [reflexivity|]. split; [exact Ne|]. apply classify_in_categories.
Qed.

Lemma load_data_from_upload_cases (float_of_text : string -> option Q) (u : upload) :
  (load_data_from_upload float_of_text u = None /\
     (u = Unreadable \/ exists g, u = Workbook g /\ scan_rows float_of_text g = [])) \/
  (exists g, u = Workbook g /\
     load_data_from_upload float_of_text u = Some (scan_rows float_of_text g) /\
     scan_rows float_of_text g <> []).
Proof.
  destruct u as [|g]; [left; auto|].
  unfold load_data_from_upload, read_excel.
  destruct (scan_rows float_of_text g) as [|it rest] eqn:Hs.
  - left; split; [reflexivity|]. right; exists g; auto.
  - right; exists g; rewrite Hs; split; [reflexivity|split; [reflexivity|discriminate]].
Qed.

(** C4 (counterexample). The scan keeps a row whose value cell is the
    float 0.0: the loaded data set holds a line item of value 0. *)
Lemma C4_zero_value_row_kept :
  load_data_from_upload py_float_text (Workbook [zero_value_row]) =
  Some [ {| Description := "Misc Fees"; Value := 0; Category := "Other";
            Abs_Value := Qabs 0 |} ].
Proof. vm_compute. reflexivity. Qed.

(** C4 (amended). The scan has no value filter: a row whose description
    passes the checks and whose value cell parses to 0 (an integer or float
    cell 0, or a text the parser reads as 0) is emitted, with value 0 and
    absolute value 0. *)
Theorem C4_zero_values_not_filtered (float_of_text : string -> option Q)
    (r : row) (c0 c5 : cell) (v : Q) :
  nth_error r 0 = Some c0 -> c0 <> Missing -> nth_error r 5 = Some c5 ->
  py_float float_of_text c5 = Some v -> (v == 0)%Q ->
  strip (py_str c0) <> "" -> (2 < String.length (strip (py_str c0)))%nat ->
  ~ In (strip (py_str c0)) header_rows -> isdigit (strip (py_str c0)) = false ->
  exists it, In it (scan_rows float_of_text [r]) /\
    Description it = strip (py_str c0) /\ (Value it == 0)%Q /\ (Abs_Value it == 0)%Q.
Proof.
  intros H0 N0 H5 Hv Hz Ne Len Nh Nd.
  set (it := {| Description := strip (py_str c0); Value := v;
                Category := classify_line_item (strip (py_str c0)); Abs_Value := Qabs v |}).
  assert (Hr : process_row float_of_text r = Some it).
  { apply process_row_iff. exists c0, c5, v.
    assert (N5 : c5 <> Missing) by (intro E; subst c5; discriminate Hv).
    repeat split; assumption. }
  exists it. split; [simpl; rewrite Hr; left; reflexivity|].
  split; [reflexivity|]. split; [exact Hz|].
  simpl. rewrite Hz. reflexivity.
Qed.

(** Witness of [C4_zero_values_not_filtered] on the row ("Misc Fees", 0.0). *)
Lemma C4_zero_values_not_filtered_witness :
  exists it, In it (scan_rows py_float_text [zero_value_row]) /\
    Description it = "Misc Fees" /\ (Value it == 0)%Q /\ (Abs_Value it == 0)%Q.
Proof.
  exact (C4_zero_values_not_filtered py_float_text zero_value_row
           (Text "Misc Fees") (Float 0 "0.0") 0
           eq_refl ltac:(discriminate) eq_refl eq_refl (Qeq_refl 0)
           ltac:(discriminate) ltac:(vm_compute; lia)
           ltac:(simpl; intuition discriminate) eq_refl).
Defined.

(** C5 (counterexample). An unreadable source and a readable grid with no
    valid row give the same result: [None]. *)
Lemma C5_unreadable_same_as_no_rows :
  load_data_from_upload py_float_text Unreadable = None /\
  load_data_from_upload py_float_text (Workbook []) = None.
Proof. split; reflexivity. Qed.

(** C5 (amended). [load_data_from_upload] returns [None] for an unreadable
    source and also, for a readable grid, exactly when no row passed the
    scan filters: the two failure outcomes share one sentinel. *)
Theorem C5_single_none_sentinel :
  forall float_of_text g,
    load_data_from_upload float_of_text Unreadable = None /\
    (load_data_from_upload float_of_text (Workbook g) = None <->
     scan_rows float_of_text g = []).
Proof.
  intros fot g. split; [reflexivity|].
  unfold load_data_from_upload, read_excel.
  destruct (scan_rows fot g); split; congruence.
Qed.

(** C8. Every line item of a data set the program builds (a loaded upload
    or the sample data) has [Abs_Value = |Value|], a non-empty description
    and one of the six categories. *)
Theorem C8_line_item_invariant :
  (forall float_of_text u ds,
     load_data_from_upload float_of_text u = Some ds -> Forall item_ok ds) /\
  Forall item_ok create_sample_data.
Proof.
  split.
  - intros fot u ds Hl.
    destruct (load_data_from_upload_cases fot u) as [[Hn _] | (g & _ & Hs & _)];
      rewrite Hl in *; [discriminate|].
    injection Hs as ->. apply scan_rows_item_ok.
  - unfold create_sample_data; simpl.
    repeat apply Forall_cons; try apply Forall_nil;
      (split; [reflexivity | split; [discriminate | simpl; tauto]]).
Qed.

(** C10. [load_data_from_upload] returns either [None] or a non-empty data
    set, and an unreadable source gives [None] (no exception escapes). *)
Theorem C10_load_nonempty_or_none :
  forall float_of_text u,
    (load_data_from_upload float_of_text u = None \/
     exists ds, load_data_from_upload float_of_text u = Some ds /\ ds <> []) /\
    load_data_from_upload float_of_text Unreadable = None.
Proof.
  intros fot u. split; [|reflexivity].
  destruct (load_data_from_upload_cases fot u) as [[Hn _] | (g & _ & Hs & Hne)];
    [left; exact Hn | right; eexists; split; [exact Hs | exact Hne]].
Qed.

(** C3 (counterexample). With a negative revenue total the margin is 0,
    not [netIncome / totalRevenue * 100] (which is 100 here). *)
Lemma C3_negative_revenue_margin_zero :
  profit_margin (compute_metrics negative_revenue_frame) = Ok 0 /\
  ~ (0 == net_income (compute_metrics negative_revenue_frame) /
          total_revenue (compute_metrics negative_revenue_frame) * 100)%Q.
Proof. split; [reflexivity | vm_compute; discriminate]. Qed.

(** C3 (amended). The profit margin is always computed without raising; it
    is [netIncome / totalRevenue * 100] when [totalRevenue > 0] and [0] when
    [totalRevenue <= 0] (zero or negative revenue). *)
Theorem C3_profit_margin_guarded :
  forall df,
    let m := compute_metrics df in
    (exists pm, profit_margin m = Ok pm) /\
    ((0 < total_revenue m)%Q ->
       profit_margin m = Ok (net_income m / total_revenue m * 100)%Q) /\
    ((total_revenue m <= 0)%Q -> profit_margin m = Ok 0%Q).
Proof.
  intros df m. unfold m, compute_metrics; simpl. unfold margin_of, py_truediv.
  set (rev := category_value_sum "Revenue" df).
  set (net := (rev - Qabs (category_value_sum "Expenses" df))%Q).
  destruct (Qle_bool rev 0) eqn:Hle; simpl.
  - apply Qle_bool_iff in Hle.
    split; [eexists; reflexivity|].
    split; [intro Hlt; exfalso; apply (Qlt_not_le _ _ Hlt Hle) | reflexivity].
  - assert (Hlt : ~ (rev <= 0)%Q) by (intro H; apply Qle_bool_iff in H; congruence).
    apply Qnot_le_lt in Hlt.
    destruct (Qeq_bool rev 0) eqn:Heq.
    + apply Qeq_bool_iff in Heq. exfalso. rewrite Heq in Hlt. discriminate.
    + split; [eexists; reflexivity|].
      split; [reflexivity | intro H; exfalso; apply (Qlt_not_le _ _ Hlt H)].
Qed.

(** C2 (counterexample). With the filter on "Expenses" (an offered option),
    the displayed revenue card is the full frame's 100, not the filtered
    frame's 0. *)
Lemma C2_metrics_ignore_filter :
  In "Expenses" (filter_options revenue_expense_frame) /\
  ~ (total_revenue (metric_cards (render revenue_expense_frame "Expenses")) ==
     total_revenue (compute_metrics (filter_frame "Expenses" revenue_expense_frame)))%Q.
Proof. split; [simpl; tauto | vm_compute; discriminate]. Qed.

Lemma unique_In (ks seen : list string) (k : string) :
  In k (unique seen ks) <-> In k ks /\ ~ In k seen.
Proof.
  revert seen. induction ks as [|a ks IH]; intro seen; simpl; [tauto|].
  destruct (existsb (String.eqb a) seen) eqn:Ex.
  - apply existsb_exists in Ex as [x [Hx Hq]]. apply String.eqb_eq in Hq; subst x.
    rewrite IH. split; [tauto|].
    intros [[-> | H] N]; [contradiction | auto].
  - assert (Na : ~ In a seen).
    { intro H. assert (existsb (String.eqb a) seen = true) by
        (apply existsb_exists; exists a; split; [exact H | apply String.eqb_refl]).
      congruence. }
    simpl. rewrite IH. simpl.
    split.
    + intros [-> | [H N]]; [auto | split; [auto | tauto]].
    + intros [[-> | H] N]; [auto|].
      destruct (String.eqb_spec a k) as [-> | Hak]; [auto|].
      right; split; [auto|]. intros [-> | H']; [congruence | contradiction].
Qed.

Lemma unique_NoDup (ks seen : list string) : NoDup (unique seen ks).
Proof.
  revert seen. induction ks as [|a ks IH]; intro seen; simpl; [constructor|].
  destruct (existsb (String.eqb a) seen); [apply IH|].
  constructor; [|apply IH].
  rewrite unique_In. simpl. tauto.
Qed.

Lemma insert_sorted_perm (k : string) (ks : list string) :
  Permutation (insert_sorted k ks) (k :: ks).
Proof.
  induction ks as [|k' ks IH]; simpl; [reflexivity|].
  destruct (String.leb k k'); [reflexivity|].
  rewrite IH. apply perm_swap.
Qed.

Lemma sort_keys_perm (ks : list string) : Permutation (sort_keys ks) ks.
Proof.
  induction ks as [|k ks IH]; simpl; [reflexivity|].
  rewrite insert_sorted_perm, IH. reflexivity.
Qed.

Lemma group_keys_NoDup (df : dataset) : NoDup (group_keys df).
Proof.
  unfold group_keys. eapply Permutation_NoDup.
  - symmetry; apply sort_keys_perm.
  - apply unique_NoDup.
Qed.

Lemma group_keys_In (df : dataset) (it : line_item) :
  In it df -> In (Category it) (group_keys df).
Proof.
  intro H. unfold group_keys. eapply Permutation_in.
  - symmetry; apply sort_keys_perm.
  - apply unique_In. split; [apply in_map; exact H | simpl; tauto].
Qed.

Lemma sum_Q_map_ext (f g : string -> Q) (ks : list string) :
  (forall k, In k ks -> f k == g k)%Q ->
  (sum_Q (map f ks) == sum_Q (map g ks))%Q.
Proof.
  induction ks as [|k ks IH]; intro H; simpl; [reflexivity|].
  rewrite (H k (or_introl eq_refl)), IH; [reflexivity|].
  intros k' Hk'; apply H; right; exact Hk'.
Qed.

Lemma sum_Q_map_plus (f g : string -> Q) (ks : list string) :
  (sum_Q (map (fun k => f k + g k) ks) == sum_Q (map f ks) + sum_Q (map g ks))%Q.
Proof.
  induction ks as [|k ks IH]; simpl; [reflexivity|].
  rewrite IH. ring.
Qed.

Lemma sum_Q_indicator_absent (c : string) (a : Q) (ks : list string) :
  ~ In c ks ->
  (sum_Q (map (fun k => if String.eqb c k then a else 0) ks) == 0)%Q.
Proof.
  induction ks as [|k ks IH]; intro N; simpl; [reflexivity|].
  destruct (String.eqb_spec c k) as [-> | _]; [exfalso; apply N; left; reflexivity|].
  rewrite IH; [reflexivity|]. intro H; apply N; right; exact H.
Qed.

Lemma sum_Q_indicator (c : string) (a : Q) (ks : list string) :
  NoDup ks -> In c ks ->
  (sum_Q (map (fun k => if String.eqb c k then a else 0) ks) == a)%Q.
Proof.
  induction ks as [|k ks IH]; intros Nd Hin; [destruct Hin|].
  inversion Nd as [|k0 ks0 Nk Nd']; subst. simpl.
  destruct (String.eqb_spec c k) as [-> | Hck].
  - rewrite sum_Q_indicator_absent by exact Nk. ring.
  - destruct Hin as [-> | Hin]; [congruence|].
    rewrite IH by assumption. ring.
Qed.

Lemma group_sum_partition (ks : list string) (df : dataset) :
  NoDup ks -> (forall it, In it df -> In (Category it) ks) ->
  (sum_Q (map (group_sum df) ks) == sum_Q (map Abs_Value df))%Q.
Proof.
  intro Nd. induction df as [|it df IH]; intro Hcov.
  - simpl. transitivity (sum_Q (map (fun _ : string => 0%Q) ks)).
    + apply sum_Q_map_ext. intros; reflexivity.
    + clear. induction ks; simpl; [reflexivity|]. rewrite IHks. reflexivity.
  - transitivity (sum_Q (map (fun k => (if String.eqb (Category it) k then Abs_Value it else 0)
                                       + group_sum df k) ks))%Q.
    + apply sum_Q_map_ext. intros k _. unfold group_sum, select_category. simpl.
      destruct (String.eqb (Category it) k); simpl; ring.
    + rewrite sum_Q_map_plus, sum_Q_indicator, IH.
      * simpl. reflexivity.
      * intros it' H; apply Hcov; right; exact H.
      * exact Nd.
      * apply Hcov; left; reflexivity.
Qed.

(** C9. The per-category sums of [Abs_Value] computed by the groupby of the
    category pie chart add up to the sum of [Abs_Value] over the whole
    frame, and every category present in the frame is a key. *)
Theorem C9_group_totals_partition :
  forall df,
    (sum_Q (map snd (category_totals df)) == sum_Q (map Abs_Value df))%Q /\
    (forall it, In it df -> In (Category it) (map fst (category_totals df))).
Proof.
  intro df. unfold category_totals. rewrite !map_map. simpl. split.
  - apply group_sum_partition; [apply group_keys_NoDup | apply group_keys_In].
  - intros it H. rewrite map_id. apply group_keys_In; exact H.
Qed.

(** * Further properties of app.py *)

(** X2. The waterfall's revenue and expense bars are the Total Revenue and
    Total Expenses cards, and its net result is the Net Income card minus
    the absolute depreciation and tax & interest totals, hence never above
    the Net Income card. *)
Theorem waterfall_net_result_vs_net_income (df : dataset) :
  let w := create_enhanced_waterfall_chart df in
  let m := compute_metrics df in
  revenue_items w = total_revenue m /\ expense_items w = total_expenses m /\
  (net_result w == net_income m - depreciation w - tax_interest w)%Q /\
  (net_result w <= net_income m)%Q.
Proof.
  intros w m. split; [reflexivity|]. split; [reflexivity|].
  assert (Hd : (0 <= depreciation w)%Q) by apply Qabs_nonneg.
  assert (Ht : (0 <= tax_interest w)%Q) by apply Qabs_nonneg.
  assert (He : (net_result w == net_income m - depreciation w - tax_interest w)%Q)
    by (unfold w, m; simpl; ring).
  split; [exact He|]. rewrite He.
  apply (Qplus_le_l _ _ (depreciation w + tax_interest w)).
  setoid_replace (net_income m - depreciation w - tax_interest w +
                  (depreciation w + tax_interest w))%Q with (net_income m) by ring.
  setoid_replace (net_income m) with (net_income m + 0)%Q at 1 by ring.
  apply Qplus_le_r. setoid_replace 0%Q with (0 + 0)%Q by ring.
  apply Qplus_le_compat; assumption.
Qed.

Lemma select_category_skip (cat : string) (df1 df2 : dataset) (it : line_item) :
  Category it <> cat ->
  select_category cat (df1 ++ it :: df2)%list = select_category cat (df1 ++ df2)%list.
Proof.
  intro H. unfold select_category. rewrite !filter_app. simpl.
  destruct (String.eqb_spec (Category it) cat); [contradiction | reflexivity].
Qed.

(** X3. The waterfall chart ignores line items whose category is none of
    Revenue, Expenses, Depreciation and Tax & Interest (Profit/Loss and
    Other lines): inserting one anywhere leaves the chart unchanged. *)
Theorem waterfall_ignores_other_categories (df1 df2 : dataset) (it : line_item) :
  ~ In (Category it) ["Revenue"; "Expenses"; "Depreciation"; "Tax & Interest"] ->
  create_enhanced_waterfall_chart (df1 ++ it :: df2)%list =
  create_enhanced_waterfall_chart (df1 ++ df2)%list.
Proof.
  intro H. simpl in H.
  unfold create_enhanced_waterfall_chart, category_value_sum.
  rewrite !(select_category_skip _ df1 df2 it) by (intro E; apply H; rewrite E; tauto).
  reflexivity.
Qed.

(** Witness of [waterfall_ignores_other_categories]: the sample "Net Income"
    line (Profit/Loss) added to the other sample lines. *)
Lemma waterfall_ignores_other_categories_witness :
  ~ In "Profit/Loss" ["Revenue"; "Expenses"; "Depreciation"; "Tax & Interest"] /\
  create_enhanced_waterfall_chart
    (firstn 8 create_sample_data ++
     {| Description := "Net Income"; Value := 2250000; Category := "Profit/Loss";
        Abs_Value := 2250000 |} :: [])%list =
  create_enhanced_waterfall_chart (firstn 8 create_sample_data ++ [])%list.
Proof.
  assert (H : ~ In "Profit/Loss" ["Revenue"; "Expenses"; "Depreciation"; "Tax & Interest"])
    by (simpl; intuition discriminate).
  split; [exact H|].
  exact (waterfall_ignores_other_categories (firstn 8 create_sample_data) []
           {| Description := "Net Income"; Value := 2250000; Category := "Profit/Loss";
              Abs_Value := 2250000 |} H).
Defined.

Lemma Qminus_le_self (a b : Q) : (0 <= b -> a - b <= a)%Q.
Proof.
  intro H. apply (Qplus_le_l _ _ b).
  setoid_replace (a - b + b)%Q with (a + 0)%Q by ring.
  apply Qplus_le_r. exact H.
Qed.

(** X4. The key metrics are bounded: Total Expenses is never negative, Net
    Income never exceeds Total Revenue, and the Profit Margin is never
    above 100. *)
Theorem metrics_bounds (df : dataset) :
  let m := compute_metrics df in
  (0 <= total_expenses m)%Q /\ (net_income m <= total_revenue m)%Q /\
  (forall pm, profit_margin m = Ok pm -> (pm <= 100)%Q).
Proof.
  intro m.
  assert (He : (0 <= total_expenses m)%Q) by apply Qabs_nonneg.
  assert (Hn : (net_income m <= total_revenue m)%Q).
  { unfold m, compute_metrics; simpl. apply Qminus_le_self, Qabs_nonneg. }
  split; [exact He|]. split; [exact Hn|].
  intros pm. unfold m, compute_metrics, margin_of, py_truediv in *; simpl in *.
  destruct (Qle_bool (category_value_sum "Revenue" df) 0) eqn:Hle; simpl.
  - intro H; injection H as <-. discriminate.
  - destruct (Qeq_bool (category_value_sum "Revenue" df) 0); [discriminate|].
    intro H; injection H as <-.
    assert (Hpos : (0 < category_value_sum "Revenue" df)%Q).
    { apply Qnot_le_lt. intro H. apply Qle_bool_iff in H. congruence. }
    setoid_replace 100%Q with (1 * 100)%Q at 2 by ring.
    apply Qmult_le_compat_r; [|discriminate].
    apply Qle_shift_div_r; [exact Hpos|].
    setoid_replace (1 * category_value_sum "Revenue" df)%Q
      with (category_value_sum "Revenue" df) by ring.
    exact Hn.
Qed.

Lemma process_row_short (float_of_text : string -> option Q) (r : row) :
  (List.length r <= 5)%nat -> process_row float_of_text r = None.
Proof.
  intro H. unfold process_row.
  replace ((5 <? List.length r)%nat) with false by (symmetry; apply Nat.ltb_ge; exact H).
  reflexivity.
Qed.

(** X5. The scan works row by row: scanning two stacked grids gives the
    line items of the first followed by those of the second, and a grid
    never yields more line items than it has rows. *)
Theorem scan_rows_app_length (float_of_text : string -> option Q) (g1 g2 : grid) :
  scan_rows float_of_text (g1 ++ g2)%list =
    (scan_rows float_of_text g1 ++ scan_rows float_of_text g2)%list /\
  (List.length (scan_rows float_of_text g1) <= List.length g1)%nat.
Proof.
  split.
  - induction g1 as [|r g1 IH]; simpl; [reflexivity|].
    destruct (process_row float_of_text r); simpl; rewrite IH; reflexivity.
  - induction g1 as [|r g1 IH]; simpl; [lia|].
    destruct (process_row float_of_text r); simpl; lia.
Qed.

(** X6. A sheet with fewer than six columns (every row at most five cells
    long) never yields data: [load_data_from_upload] returns [None]. *)
Theorem load_narrow_sheet_none (float_of_text : string -> option Q) (g : grid) :
  Forall (fun r => (List.length r <= 5)%nat) g ->
  load_data_from_upload float_of_text (Workbook g) = None.
Proof.
  intro H. unfold load_data_from_upload, read_excel.
  assert (E : scan_rows float_of_text g = []).
  { induction H as [|r g Hr Hg IH]; simpl; [reflexivity|].
    rewrite process_row_short by exact Hr. exact IH. }
  rewrite E. reflexivity.
Qed.

(** Witness of [load_narrow_sheet_none]: a two-column sheet. *)
Lemma load_narrow_sheet_none_witness :
  Forall (fun r => (List.length r <= 5)%nat)
    [[Text "Total Revenue"; Int 100]; [Text "Cost of Sales"; Int (-40)]] /\
  load_data_from_upload py_float_text
    (Workbook [[Text "Total Revenue"; Int 100]; [Text "Cost of Sales"; Int (-40)]]) = None.
Proof.
  assert (H : Forall (fun r => (List.length r <= 5)%nat)
                [[Text "Total Revenue"; Int 100]; [Text "Cost of Sales"; Int (-40)]])
    by (repeat constructor).
  split; [exact H | exact (load_narrow_sheet_none py_float_text _ H)].
Defined.

Lemma unique_length_bounds (ds : dataset) :
  ds <> [] -> Forall (fun it => In (Category it) categories) ds ->
  (1 <= List.length (unique [] (map Category ds)) <= 6)%nat.
Proof.
  intros Hne Hcat. split.
  - destruct ds as [|it ds]; [contradiction|]. simpl. lia.
  - change 6%nat with (List.length categories).
    apply NoDup_incl_length; [apply unique_NoDup|].
    intros k Hk. apply unique_In in Hk as [Hk _].
    apply in_map_iff in Hk as (it & <- & Hin).
    rewrite Forall_forall in Hcat. exact (Hcat it Hin).
Qed.

(** X7. For any loaded upload, the "Categories" count of the sidebar's data
    summary card ([len(df['Category'].unique())]) is between 1 and 6. *)
Theorem loaded_category_count_bounds (float_of_text : string -> option Q)
    (u : upload) (ds : dataset) :
  load_data_from_upload float_of_text u = Some ds ->
  (1 <= List.length (unique [] (map Category ds)) <= 6)%nat.
Proof.
  intro Hl. apply unique_length_bounds.
  - destruct (load_data_from_upload_cases float_of_text u)
      as [[Hn _] | (g & _ & Hs & Hne)]; rewrite Hl in *; [discriminate|].
    injection Hs as ->. exact Hne.
  - destruct (load_data_from_upload_cases float_of_text u)
      as [[Hn _] | (g & _ & Hs & _)]; rewrite Hl in *; [discriminate|].
    injection Hs as ->.
    eapply Forall_impl; [|apply scan_rows_item_ok].
    intros it (_ & _ & H); exact H.
Qed.

(** Witness of [loaded_category_count_bounds]: a one-row upload. *)
Lemma loaded_category_count_bounds_witness :
  load_data_from_upload py_float_text
    (Workbook [[Text "Total Revenue"; Missing; Missing; Missing; Missing; Int 100]]) =
    Some [{| Description := "Total Revenue"; Value := inject_Z 100;
             Category := "Revenue"; Abs_Value := Qabs (inject_Z 100) |}] /\
  (1 <= List.length (unique [] (map Category
     [{| Description := "Total Revenue"; Value := inject_Z 100;
         Category := "Revenue"; Abs_Value := Qabs (inject_Z 100) |}])) <= 6)%nat.
Proof.
  assert (H : load_data_from_upload py_float_text
    (Workbook [[Text "Total Revenue"; Missing; Missing; Missing; Missing; Int 100]]) =
    Some [{| Description := "Total Revenue"; Value := inject_Z 100;
             Category := "Revenue"; Abs_Value := Qabs (inject_Z 100) |}])
    by (vm_compute; reflexivity).
  split; [exact H | exact (loaded_category_count_bounds py_float_text _ _ H)].
Defined.

Lemma str_app_nil (s : string) : (s ++ "")%string = s.
Proof. induction s as [|c s IH]; simpl; [reflexivity | now rewrite IH]. Qed.

Lemma str_app_assoc (a b c : string) : (a ++ (b ++ c))%string = ((a ++ b) ++ c)%string.
Proof. induction a as [|x a IH]; simpl; [reflexivity | now rewrite IH]. Qed.

Lemma rev_str_app (a b : string) :
  rev_str (a ++ b)%string = (rev_str b ++ rev_str a)%string.
Proof.
  induction a as [|c a IH]; simpl.
  - now rewrite str_app_nil.
  - rewrite IH. apply eq_sym, str_app_assoc.
Qed.

Lemma rev_str_involutive (s : string) : rev_str (rev_str s) = s.
Proof. induction s as [|c s IH]; simpl; [reflexivity|]. rewrite rev_str_app, IH. reflexivity. Qed.

Lemma lstrip_idem (s : string) : lstrip (lstrip s) = lstrip s.
Proof.
  induction s as [|c s IH]; simpl; [reflexivity|].
  destruct (is_space c) eqn:Hc; [exact IH|]. simpl. rewrite Hc. reflexivity.
Qed.

Lemma lstrip_snoc (w : string) (c : ascii) :
  is_space c = false ->
  lstrip (w ++ String c "")%string = (lstrip w ++ String c "")%string.
Proof.
  intro Hc. induction w as [|d w IH]; simpl.
  - rewrite Hc. reflexivity.
  - destruct (is_space d); [exact IH | reflexivity].
Qed.

Lemma lstrip_length_le (u : string) : (String.length (lstrip u) <= String.length u)%nat.
Proof. induction u as [|a u IH]; simpl; [lia|]. destruct (is_space a); simpl; lia. Qed.

(** Trailing strip: [rev_str (lstrip (rev_str y))]. *)
Lemma lstrip_rstrip (x : string) :
  lstrip x = x -> lstrip (rev_str (lstrip (rev_str x))) = rev_str (lstrip (rev_str x)).
Proof.
  destruct x as [|c x]; [reflexivity|]. simpl.
  destruct (is_space c) eqn:Hc.
  - intro H. exfalso. apply (f_equal String.length) in H.
    pose proof (lstrip_length_le x) as Hle. simpl in H. lia.
  - intros _. rewrite lstrip_snoc by exact Hc. rewrite rev_str_app. simpl.
    rewrite Hc. reflexivity.
Qed.

Lemma strip_idem (s : string) : strip (strip s) = strip s.
Proof.
  unfold strip.
  rewrite (lstrip_rstrip (lstrip s) (lstrip_idem s)).
  rewrite rev_str_involutive, lstrip_idem. reflexivity.
Qed.

(** X8. Every description the scan stores is already stripped: it has no
    leading or trailing whitespace ([strip] leaves it unchanged). *)
Theorem scan_descriptions_stripped (float_of_text : string -> option Q) (g : grid) :
  Forall (fun it => strip (Description it) = Description it) (scan_rows float_of_text g).
Proof.
  apply Forall_forall. intros it Hin.
  apply scan_rows_In in Hin as (r & _ & Hr).
  apply process_row_iff in Hr as (c0 & c5 & v & _ & _ & _ & _ & _ & _ & _ & _ & _ & ->).
  simpl. apply strip_idem.
Qed.

(** X9. Every option the sidebar's category selectbox offers selects a
    non-empty frame when the data set is non-empty: no filter choice leads
    to an empty table. *)
Theorem filter_options_nonempty (df : dataset) (sel : string) :
  df <> [] -> In sel (filter_options df) -> filter_frame sel df <> [].
Proof.
  intros Hne Hin. unfold filter_frame.
  destruct (String.eqb_spec sel "All") as [-> | Hs]; simpl; [exact Hne|].
  destruct Hin as [Hin | Hin]; [congruence|].
  apply unique_In in Hin as [Hin _].
  apply in_map_iff in Hin as (it & Hc & Hit).
  intro E. assert (In it (select_category sel df)) as H.
  { apply filter_In. split; [exact Hit | apply String.eqb_eq; exact Hc]. }
  rewrite E in H. destruct H.
Qed.

(** Witness of [filter_options_nonempty]: the "Expenses" option. *)
Lemma filter_options_nonempty_witness :
  revenue_expense_frame <> [] /\
  In "Expenses" (filter_options revenue_expense_frame) /\
  filter_frame "Expenses" revenue_expense_frame <> [].
Proof.
  assert (H1 : revenue_expense_frame <> []) by discriminate.
  assert (H2 : In "Expenses" (filter_options revenue_expense_frame)) by (simpl; tauto).
  split; [exact H1|]. split; [exact H2|].
  exact (filter_options_nonempty _ _ H1 H2).
Defined.

Lemma unique_all_seen (seen ks : list string) :
  Forall (fun k => In k seen) ks -> unique seen ks = [].
Proof.
  induction 1 as [|k ks Hk _ IH]; simpl; [reflexivity|].
  replace (existsb (String.eqb k) seen) with true; [exact IH|].
  symmetry. apply existsb_exists. exists k. split; [exact Hk | apply String.eqb_refl].
Qed.

Lemma select_category_idem (cat : string) (df : dataset) :
  select_category cat (select_category cat df) = select_category cat df.
Proof.
  unfold select_category. induction df as [|it df IH]; simpl; [reflexivity|].
  destruct (String.eqb (Category it) cat) eqn:E; simpl; [rewrite E|]; rewrite IH; reflexivity.
Qed.

Lemma select_category_cats (cat : string) (df : dataset) :
  Forall (fun k => In k [cat]) (map Category (select_category cat df)).
Proof.
  apply Forall_forall. intros k Hk. apply in_map_iff in Hk as (it & <- & Hit).
  apply filter_In in Hit as [_ E]. apply String.eqb_eq in E. left; symmetry; exact E.
Qed.

(** X10. When a specific category that occurs in the data is selected, the
    category pie chart has exactly one slice: that category, with the sum
    of its items' absolute values. *)
Theorem pie_single_slice (df : dataset) (sel : string) :
  sel <> "All" -> In sel (map Category df) ->
  pie_totals (render df sel) = [(sel, group_sum df sel)].
Proof.
  intros Hs Hin. simpl. unfold filter_frame.
  destruct (String.eqb_spec sel "All") as [E | _]; [contradiction|]. simpl.
  unfold category_totals, group_keys.
  apply in_map_iff in Hin as (it & Hc & Hit).
  assert (Hsel : In it (select_category sel df))
    by (apply filter_In; split; [exact Hit | apply String.eqb_eq; exact Hc]).
  destruct (select_category sel df) as [|it0 rest] eqn:Es; [destruct Hsel|].
  pose proof (select_category_cats sel df) as Hall. rewrite Es in Hall.
  inversion Hall as [|k ks Hk0 Hrest]; subst.
  destruct Hk0 as [Hk0 | []]. simpl. rewrite <- Hk0.
  rewrite unique_all_seen by exact Hrest. simpl.
  unfold group_sum. rewrite <- Es, select_category_idem. reflexivity.
Qed.

(** Witness of [pie_single_slice]: "Expenses" on the revenue/expense frame. *)
Lemma pie_single_slice_witness :
  "Expenses" <> "All" /\ In "Expenses" (map Category revenue_expense_frame) /\
  pie_totals (render revenue_expense_frame "Expenses") =
    [("Expenses", group_sum revenue_expense_frame "Expenses")].
Proof.
  assert (H1 : "Expenses" <> "All") by discriminate.
  assert (H2 : In "Expenses" (map Category revenue_expense_frame)) by (simpl; tauto).
  split; [exact H1|]. split; [exact H2|].
  exact (pie_single_slice _ _ H1 H2).
Defined.

Lemma run_main_upload (float_of_text : string -> option Q) (st : session) (u : upload)
    (d r : bool) (sel : string) :
  run_main float_of_text st (mk_inputs (Some u) d r sel) =
  (let ds := match load_data_from_upload float_of_text u with
             | Some ((_ :: _) as ds) => ds
             | _ => create_sample_data
             end in
   if r then (None, Rerun) else (Some ds, Shown (render ds sel))).
Proof.
  unfold run_main, present; simpl.
  destruct (load_data_from_upload float_of_text u) as [[|it ds]|]; simpl;
    destruct r; reflexivity.
Qed.

(** X11. A run of [main] with an uploaded file (and no reset) always ends
    with the dashboard drawn: over the uploaded data when it yields line
    items, otherwise over the sample data; the previous session data plays
    no part. *)
Theorem run_main_with_upload (float_of_text : string -> option Q) (st : session)
    (u : upload) (d : bool) (sel : string) :
  (exists ds, load_data_from_upload float_of_text u = Some ds /\ ds <> [] /\
     run_main float_of_text st (mk_inputs (Some u) d false sel) =
       (Some ds, Shown (render ds sel))) \/
  (load_data_from_upload float_of_text u = None /\
     run_main float_of_text st (mk_inputs (Some u) d false sel) =
       (Some create_sample_data, Shown (render create_sample_data sel))).
Proof.
  rewrite run_main_upload.
  destruct (load_data_from_upload_cases float_of_text u)
    as [[Hn _] | (g & _ & Hs & Hne)].
  - right. rewrite Hn. split; reflexivity.
  - left. exists (scan_rows float_of_text g). rewrite Hs.
    destruct (scan_rows float_of_text g) as [|it rest]; [contradiction|].
    split; [reflexivity | split; [exact Hne | reflexivity]].
Qed.

(** X12. While a file stays uploaded, "Reset Dashboard" has no lasting
    effect: the reset run clears the session and reruns, and the rerun
    (the uploader still holding the file) ends exactly as a run without
    the reset would. *)
Theorem reset_with_upload_restores (float_of_text : string -> option Q)
    (st : session) (u : upload) (d : bool) (sel : string) :
  run_main float_of_text st (mk_inputs (Some u) d true sel) = (None, Rerun) /\
  run_main float_of_text None (mk_inputs (Some u) d false sel) =
  run_main float_of_text st (mk_inputs (Some u) d false sel).
Proof. rewrite !run_main_upload. split; reflexivity. Qed.

(** X13. Without an upload: on an empty session the "Load Demo Data" click
    stores the sample data and reruns, and the rerun draws the dashboard
    over it; without the click nothing is drawn; a session already holding
    a non-empty data set keeps it and draws it. *)
Theorem run_main_without_upload (float_of_text : string -> option Q)
    (d : bool) (sel : string) (it : line_item) (ds : dataset) :
  run_main float_of_text None (mk_inputs None true false sel) =
    (Some create_sample_data, Rerun) /\
  run_main float_of_text (Some create_sample_data) (mk_inputs None d false sel) =
    (Some create_sample_data, Shown (render create_sample_data sel)) /\
  run_main float_of_text None (mk_inputs None false false sel) = (None, NotShown) /\
  run_main float_of_text (Some (it :: ds)) (mk_inputs None d false sel) =
    (Some (it :: ds), Shown (render (it :: ds) sel)).
Proof. repeat split; reflexivity. Qed.

Lemma filter_frame_In (df : dataset) (sel : string) (it : line_item) :
  In it (filter_frame sel df) <-> In it df /\ (sel = "All" \/ Category it = sel).
Proof.
  unfold filter_frame, select_category.
  destruct (String.eqb_spec sel "All") as [-> | Hs]; simpl; [tauto|].
  rewrite filter_In, String.eqb_eq.
  split; [tauto | intros [H [H' | H']]; [contradiction | auto]].
Qed.

Lemma category_totals_keys (df : dataset) (k : string) (v : Q) :
  In (k, v) (category_totals df) -> exists it, In it df /\ Category it = k.
Proof.
  unfold category_totals. intro H.
  apply in_map_iff in H as (k' & Hk & Hin). injection Hk as -> _.
  unfold group_keys in Hin.
  apply (Permutation_in _ (sort_keys_perm _)) in Hin.
  apply unique_In in Hin as [Hin _].
  apply in_map_iff in Hin as (it & Hc & Hit). exists it; split; assumption.
Qed.

(** C2 (amended). The four headline metrics (and the KPI gauge) are
    recomputed on each render from the whole loaded frame: they are the
    same for every selected category. The selection restricts the data
    table, the bar chart and the pie chart: they are built from exactly the
    items of the selected category (all items for "All"), and with a
    category selected the pie has no slice of another category. *)
Theorem C2_metrics_from_full_frame :
  forall df sel1 sel2,
    metric_cards (render df sel1) = metric_cards (render df sel2) /\
    metric_cards (render df sel1) = compute_metrics df /\
    kpi_gauge (render df sel1) = kpi_gauge (render df sel2) /\
    (forall it, In it (table_items (render df sel1)) <->
                In it df /\ (sel1 = "All" \/ Category it = sel1)) /\
    bar_items (render df sel1) = table_items (render df sel1) /\
    pie_totals (render df sel1) = category_totals (table_items (render df sel1)) /\
    (forall k v, In (k, v) (pie_totals (render df sel1)) -> sel1 = "All" \/ k = sel1).
Proof.
  intros df sel1 sel2.
  split; [reflexivity|]. split; [reflexivity|]. split; [reflexivity|].
  split; [intro it; apply filter_frame_In|].
  split; [reflexivity|]. split; [reflexivity|].
  intros k v H. simpl in H.
  apply category_totals_keys in H as (it & Hit & <-).
  apply filter_frame_In in Hit as [_ [Ha | Hc]]; [left; exact Ha | right; exact Hc].
Qed.
